(** * customresource: the lifecycle of one custom-resource invocation

    A shallow embedding of [handler.go]: the request and response records,
    the functional options, the panic-containing invoker, the responder and
    the dispatcher [Invoke], followed by the properties the specification
    states about them.

    Conventions.
    - A Go [string] is a [string]; a [[]byte] is a [list byte].
    - A Go pointer or interface that may be nil is an [option].
    - A Go result pair [(v, err)] of a library call that yields exactly one
      of the two is a sum [V + error].
    - What the handler does to the outside world (calling the provisioning
      function, writing to the output sink, handing a request to the
      transport) is recorded, in order, in a trace of events.
    - The packages of the standard library the handler calls, and whose
      code is not part of the repository, are the operations of the class
      [Library]. *)

From Stdlib Require Import Strings.String Strings.Ascii Strings.Byte.
From Stdlib Require Import Lists.List ZArith.
From stdpp Require Import base option strings gmap.

Set Warnings "-register-all".
Open Scope string_scope.

(** ** Go values used by the package *)

(** The newline written by the [\n] of a format string and by [Fprintln]. *)
Definition nl : string := String "010"%char EmptyString.

(** A byte slice holding the bytes of a string. *)
Definition bytes_of (s : string) : list byte := list_byte_of_string s.

(** Go's [error] interface.  The package only ever calls [Error()] on an
    error, and creates errors of its own with [fmt.Errorf]; every other
    error (of the runtime, of [encoding/json], of [net/http], of the
    caller) is kept with the name of its dynamic type. *)
Inductive error : Type :=
| fmt_Errorf (msg : string)
| other_error (type_name : string) (msg : string).

Definition Error (e : error) : string :=
  match e with
  | fmt_Errorf msg => msg
  | other_error _ msg => msg
  end.

(** The runtime error raised by a nil dereference. *)
Definition nil_dereference : error :=
  other_error "runtime.Error"
    "runtime error: invalid memory address or nil pointer dereference".

(** A non-nil value of type [interface{}]: either its dynamic type
    implements [error], or it is some other value.  [Value] is the type of
    those other values. *)
Inductive any (Value : Type) : Type :=
| any_error (e : error)
| any_other (v : Value).
Arguments any_error {Value} e.
Arguments any_other {Value} v.

(** Modelled from the spec: a structured document, as the tree of a JSON
    value ([encoding/json] is not part of the repository). *)
Inductive json : Type :=
| JNull
| JBool (b : bool)
| JNumber (literal : string)
| JString (s : string)
| JArray (items : list json)
| JObject (members : list (string * json)).

(** Modelled from the spec: [json.RawMessage], an opaque structured
    payload that may be absent.  The Go type holds the text of one JSON
    value; the model keeps the value that text denotes, and [None] is the
    empty message. *)
Definition RawMessage : Type := option json.

Definition RequestTypeCreate : string := "Create".
Definition RequestTypeUpdate : string := "Update".
Definition RequestTypeDelete : string := "Delete".

Definition StatusSuccess : string := "SUCCESS".
Definition StatusFailed : string := "FAILED".

(** ** The records of handler.go *)

Module Request.
Record t : Type := mk {
  RequestType : string;
  ResponseURL : string;
  StackId : string;
  RequestId : string;
  ResourceType : string;
  LogicalResourceId : string;
  PhysicalResourceId : string;
  ResourceProperties : RawMessage;     (* `json:",omitempty"` *)
  OldResourceProperties : RawMessage   (* `json:",omitempty"` *)
}.

(** The zero value, [var req Request]. *)
Definition zero : t :=
  mk EmptyString EmptyString EmptyString EmptyString EmptyString EmptyString
     EmptyString None None.
End Request.

Module Response.
Record t (Value : Type) : Type := mk {
  Data : option (gmap string (option (any Value)));
  PhysicalResourceId : string;
  NoEcho : bool
}.
Arguments mk {Value} _ _ _.
Arguments Data {Value} _.
Arguments PhysicalResourceId {Value} _.
Arguments NoEcho {Value} _.
End Response.

Module replyInput.
Record t (Value : Type) : Type := mk {
  Status : string;
  Reason : string;
  PhysicalResourceId : string;
  StackId : string;
  RequestId : string;
  LogicalResourceId : string;
  (* [interface{}]: [None] is the nil interface, [Some m] holds the map
     [m] of a response, itself possibly the nil map. *)
  Data : option (option (gmap string (option (any Value))))
}.
Arguments mk {Value} _ _ _ _ _ _ _.
Arguments Status {Value} _.
Arguments Reason {Value} _.
Arguments PhysicalResourceId {Value} _.
Arguments StackId {Value} _.
Arguments RequestId {Value} _.
Arguments LogicalResourceId {Value} _.
Arguments Data {Value} _.
End replyInput.

(** [http.Request], as far as [reply] builds it. *)
Module HttpRequest.
Record t (Context : Type) : Type := mk {
  Method : string;
  URL : string;
  Header : gmap string (list string);
  Body : list byte;
  (* [None] is the background context [http.NewRequest] starts with. *)
  Ctx : option Context
}.
Arguments mk {Context} _ _ _ _ _.
Arguments Method {Context} _.
Arguments URL {Context} _.
Arguments Header {Context} _.
Arguments Body {Context} _.
Arguments Ctx {Context} _.
End HttpRequest.

(** [http.Response], as far as [reply] reads it. *)
Module HttpResponse.
Record t : Type := mk {
  Status : string;      (* the status line, e.g. "200 OK" *)
  StatusCode : Z;
  Body : list byte
}.
End HttpResponse.

(** [options], the target of the functional options. *)
Module options.
Record t (Writer RoundTripper : Type) : Type := mk {
  output : option Writer;
  transport : option RoundTripper
}.
Arguments mk {Writer RoundTripper} _ _.
Arguments output {Writer RoundTripper} _.
Arguments transport {Writer RoundTripper} _.
End options.

(** ** The request on the wire

    [Invoke] decodes its payload with [json.Unmarshal], which below is an
    operation of the class [Library].  The definitions of this part describe
    the document of a request, for the round trip of a request through its
    encoding. *)

(** Modelled from the spec: the codec of the request is [encoding/json],
    driven by the declaration of [Request]; it is not part of handler.go.
    The wire document is a structured document whose fields are named
    exactly as the fields of [Request]; the seven string fields are always
    present, and the two opaque fields are omitted entirely when absent
    ([omitempty]). *)
Definition omitempty (name : string) (m : RawMessage)
  : list (string * json) :=
  match m with
  | Some v => [(name, v)]
  | None => []
  end.

(** Modelled from the spec: encoding of a [Request] (see [omitempty]). *)
Definition marshalRequest (r : Request.t) : json :=
  JObject
    ([("RequestType", JString (Request.RequestType r));
      ("ResponseURL", JString (Request.ResponseURL r));
      ("StackId", JString (Request.StackId r));
      ("RequestId", JString (Request.RequestId r));
      ("ResourceType", JString (Request.ResourceType r));
      ("LogicalResourceId", JString (Request.LogicalResourceId r));
      ("PhysicalResourceId", JString (Request.PhysicalResourceId r))]
     ++ omitempty "ResourceProperties" (Request.ResourceProperties r)
     ++ omitempty "OldResourceProperties"
          (Request.OldResourceProperties r))%list.

(** Modelled from the spec: the decode error for a document that does not
    have the expected shape. *)
Definition DecodeError : error :=
  other_error "*json.UnmarshalTypeError"
    "json: cannot unmarshal value into Go value of type customresource.Request".

(** Modelled from the spec: a string field is set from a string of the
    document; any other value does not match the expected field shape. *)
Definition set_string (v : json) (set : string -> Request.t)
  : Request.t + error :=
  match v with
  | JString s => inl (set s)
  | _ => inr DecodeError
  end.

(** Modelled from the spec: one member of the document sets the field of
    its name (case-sensitive); a member of another name is skipped; an
    opaque field takes any structured value. *)
Definition set_field (r : Request.t) (m : string * json)
  : Request.t + error :=
  let '(name, v) := m in
  let '(Request.mk rt url sid rid ty lid pid props old) := r in
  if String.eqb name "RequestType" then
    set_string v (fun s => Request.mk s url sid rid ty lid pid props old)
  else if String.eqb name "ResponseURL" then
    set_string v (fun s => Request.mk rt s sid rid ty lid pid props old)
  else if String.eqb name "StackId" then
    set_string v (fun s => Request.mk rt url s rid ty lid pid props old)
  else if String.eqb name "RequestId" then
    set_string v (fun s => Request.mk rt url sid s ty lid pid props old)
  else if String.eqb name "ResourceType" then
    set_string v (fun s => Request.mk rt url sid rid s lid pid props old)
  else if String.eqb name "LogicalResourceId" then
    set_string v (fun s => Request.mk rt url sid rid ty s pid props old)
  else if String.eqb name "PhysicalResourceId" then
    set_string v (fun s => Request.mk rt url sid rid ty lid s props old)
  else if String.eqb name "ResourceProperties" then
    inl (Request.mk rt url sid rid ty lid pid (Some v) old)
  else if String.eqb name "OldResourceProperties" then
    inl (Request.mk rt url sid rid ty lid pid props (Some v))
  else inl r.

(** Modelled from the spec: the members of the document are taken in
    order; the first one that does not match stops the decoding. *)
Fixpoint set_fields (ms : list (string * json)) (r : Request.t)
  : Request.t + error :=
  match ms with
  | [] => inl r
  | m :: ms' =>
      match set_field r m with
      | inl r' => set_fields ms' r'
      | inr err => inr err
      end
  end.

(** Modelled from the spec: decoding produces a [Request], starting from
    the zero value, or fails with a decode error when the payload is not a
    structured document of the expected field shape. *)
Definition unmarshalRequest (doc : json) : Request.t + error :=
  match doc with
  | JObject ms => set_fields ms Request.zero
  | _ => inr DecodeError
  end.

(** ** The standard library

    The operations of the standard library that handler.go calls and this
    file does not look into, over the types [Context] ([context.Context],
    which the handler only passes on), [Value] (the values of type
    [interface{}] that are not errors) and [Writer] ([io.Writer]). *)
Class Library (Context Value Writer : Type) : Type := {
  (* the text the verb [%v] of package [fmt] renders a value to *)
  fmt_v : Value -> string;
  (* [ioutil.Discard] *)
  ioutil_Discard : Writer;
  (* [json.Unmarshal(payload, &req)] into the zero [Request] *)
  json_Unmarshal : list byte -> Request.t + error;
  (* [json.Marshal(input)] of a [replyInput] *)
  json_Marshal : replyInput.t Value -> list byte + error;
  (* the URL check of [http.NewRequest]: [Some err] when the URL does not
     parse *)
  url_Parse : string -> option error;
  (* [http.DefaultTransport] *)
  http_DefaultTransport : HttpRequest.t Context -> HttpResponse.t + error
}.

(** ** The handler *)

Section Handler.

Context {Context Value Writer : Type} {L : Library Context Value Writer}.

Abbreviation Request := Request.t.
Abbreviation Response := (Response.t Value).
Abbreviation replyInput := (replyInput.t Value).
Abbreviation HttpRequest := (HttpRequest.t Context).
Abbreviation HttpResponse := HttpResponse.t.

(** [http.RoundTripper]: [RoundTrip] returns a response or an error. *)
Definition RoundTripper : Type := HttpRequest -> HttpResponse + error.

(** How one call of a provisioning function ends: it returns its pair of
    results, or it panics; [r] is what [recover()] then returns in the
    deferred function of [safeInvoke]: the value of the panic, or nil
    ([None]), as for a [panic(nil)] run by Go before 1.21 or with
    [GODEBUG=panicnil=1]. *)
Inductive FnOutcome : Type :=
| Returns (resp : option Response) (err : option error)
| Panics (r : option (any Value)).

(** [Func].  The function receives a pointer to the request, so the model
    returns, next to the outcome, the request as the call leaves it.  (A
    nil [Func] behaves as a function that panics with a runtime error.) *)
Definition Func : Type := Context -> Request -> Request * FnOutcome.

Record Handler : Type := mkHandler {
  fn : Func;
  output : option Writer;
  transport : option RoundTripper
}.

(** *** Effects: a trace of events, and panics *)

Inductive event : Type :=
| Called (ctx : Context) (req : Request)    (* the function is called *)
| Written (w : Writer) (data : list byte)   (* bytes are written to a writer *)
| RoundTripped (r : HttpRequest).           (* a request goes to the transport *)

Inductive result (A : Type) : Type :=
| Returned (a : A)
| Panicked (r : any Value).
Arguments Returned {A} a.
Arguments Panicked {A} r.

Definition M (A : Type) : Type := list event * result A.

#[global] Instance M_ret : MRet M := fun A a => ([], Returned a).

#[global] Instance M_bind : MBind M := fun A B f m =>
  match m with
  | (t, Returned a) => let '(t', r) := f a in ((t ++ t')%list, r)
  | (t, Panicked r) => (t, Panicked r)
  end.

Definition tell (e : event) : M unit := ([e], Returned tt).

Definition panic {A : Type} (r : any Value) : M A := ([], Panicked r).

(** Reading through a pointer, or calling a method of an interface value:
    a nil one panics. *)
Definition deref {A : Type} (p : option A) : M A :=
  match p with
  | Some a => mret a
  | None => panic (any_error nil_dereference)
  end.

(** The bytes a trace wrote to the writers for which [is_w] holds, the
    requests it handed to the transport, and the requests the provisioning
    function was called with. *)
Fixpoint written (is_w : Writer -> bool) (t : list event) : list byte :=
  match t with
  | [] => []
  | Written w data :: t' =>
      if is_w w then (data ++ written is_w t')%list else written is_w t'
  | _ :: t' => written is_w t'
  end.

Fixpoint round_trips (t : list event) : list HttpRequest :=
  match t with
  | [] => []
  | RoundTripped r :: t' => r :: round_trips t'
  | _ :: t' => round_trips t'
  end.

Fixpoint calls (t : list event) : list Request :=
  match t with
  | [] => []
  | Called _ req :: t' => req :: calls t'
  | _ :: t' => calls t'
  end.

(** *** The library calls of [reply] *)

(** [fmt.Fprintf] formats first and then makes one call of [Write];
    [formatted] is the formatted text.  What [Write] returns is dropped by
    the handler. *)
Definition fmt_Fprintf (w : option Writer) (formatted : string) : M unit :=
  w ← deref w; tell (Written w (bytes_of formatted)).

(** [fmt.Fprintln] of one string. *)
Definition fmt_Fprintln (w : option Writer) (s : string) : M unit :=
  fmt_Fprintf w (s +:+ nl).

(** [io.Copy] of a response body that is read to its end. *)
Definition io_Copy (dst : option Writer) (src : list byte) : M unit :=
  w ← deref dst; tell (Written w src).

(** [http.NewRequest]: the method is the constant [http.MethodPut], so the
    only failure is a URL that does not parse. *)
Definition http_NewRequest (method url : string) (body : list byte)
  : HttpRequest + error :=
  match url_Parse url with
  | Some err => inr err
  | None => inl (HttpRequest.mk method url ∅ body None)
  end.

(** [httpReq.Header.Set(key, value)]. *)
Definition Header_Set (r : HttpRequest) (key value : string) : HttpRequest :=
  HttpRequest.mk (HttpRequest.Method r) (HttpRequest.URL r)
    (<[key := [value]]> (HttpRequest.Header r)) (HttpRequest.Body r)
    (HttpRequest.Ctx r).

Definition WithContext (r : HttpRequest) (ctx : Context) : HttpRequest :=
  HttpRequest.mk (HttpRequest.Method r) (HttpRequest.URL r)
    (HttpRequest.Header r) (HttpRequest.Body r) (Some ctx).

Definition http_MethodPut : string := "PUT".

(** *** handler.go *)

(** [reply].  The deferred [httpResp.Body.Close()] has no effect the model
    records. *)
Definition reply (h : Handler) (ctx : Context) (req : Request)
  (input : replyInput) : M (option error) :=
  match json_Marshal input with
  | inr _ => mret (Some (fmt_Errorf "unable to marshal reply"))
  | inl data =>
      match http_NewRequest http_MethodPut (Request.ResponseURL req) data with
      | inr err => mret (Some err)
      | inl httpReq =>
          let httpReq := Header_Set httpReq "Content-Type" "application/json" in
          let httpReq := WithContext httpReq ctx in
          rt ← deref (transport h);
          tell (RoundTripped httpReq);;
          match rt httpReq with
          | inr err => mret (Some err)
          | inl httpResp =>
              fmt_Fprintln (output h) (HttpResponse.Status httpResp);;
              io_Copy (output h) (HttpResponse.Body httpResp);;
              mret None
          end
      end
  end.

Definition replySuccess (h : Handler) (ctx : Context) (req : Request)
  (resp : option Response) : M (option error) :=
  resp ← deref resp;
  fmt_Fprintf (output h)
    (Request.LogicalResourceId req +:+ ": " +:+ Request.RequestType req
     +:+ " succeeded. PhysicalResourceId="
     +:+ Response.PhysicalResourceId resp +:+ nl);;
  let input :=
    replyInput.mk
      StatusSuccess                       (* Status *)
      EmptyString                         (* Reason *)
      (Response.PhysicalResourceId resp)  (* PhysicalResourceId *)
      (Request.StackId req)               (* StackId *)
      (Request.RequestId req)             (* RequestId *)
      (Request.LogicalResourceId req)     (* LogicalResourceId *)
      (Some (Response.Data resp))         (* Data *) in
  reply h ctx req input.

Definition replyFailure (h : Handler) (ctx : Context) (req : Request)
  (reason : string) : M (option error) :=
  fmt_Fprintf (output h)
    (Request.LogicalResourceId req +:+ ": " +:+ Request.RequestType req
     +:+ " failed - " +:+ reason +:+ nl);;
  let input :=
    replyInput.mk
      StatusFailed   (* Status *)
      reason         (* Reason *)
      EmptyString EmptyString EmptyString EmptyString None in
  reply h ctx req input.

(** The deferred function of [safeInvoke], applied to a value [recover()]
    returned that is not nil: the error the named result [err] is set
    to. *)
Definition recovered (r : any Value) : error :=
  match r with
  | any_error v => v
  | any_other x => fmt_Errorf ("recovered from " +:+ fmt_v x)
  end.

(** [safeInvoke].  The first component is the request after the call.
    After a panic the named results hold [nil] and, when [recover()] is
    not nil, the recovered error; when [recover()] is nil the deferred
    function sets nothing and both named results stay nil. *)
Definition safeInvoke (h : Handler) (ctx : Context) (req : Request)
  : M (Request * option Response * option error) :=
  tell (Called ctx req);;
  match fn h ctx req with
  | (req', Returns resp err) => mret (req', resp, err)
  | (req', Panics (Some r)) => mret (req', None, Some (recovered r))
  | (req', Panics None) => mret (req', None, None)
  end.

Definition Invoke (h : Handler) (ctx : Context) (payload : list byte)
  : M (option (list byte) * option error) :=
  match json_Unmarshal payload with
  | inr err => mret (None, Some err)
  | inl req =>
      '(req, resp, err) ← safeInvoke h ctx req;
      match err with
      | Some err =>
          let reason := Error err in
          e ← replyFailure h ctx req reason; mret (None, e)
      | None =>
          e ← replySuccess h ctx req resp; mret (None, e)
      end
  end.

(** *** Functional options *)

(** [Option], a function that updates the [options] in place.  (A nil
    [Option] makes [New] panic; the model has none.) *)
Definition Option : Type :=
  options.t Writer RoundTripper -> options.t Writer RoundTripper.

Definition WithOutput (w : option Writer) : Option :=
  fun o =>
    match w with
    | Some _ => options.mk w (options.transport o)
    | None => o
    end.

Definition WithTransport (transport : option RoundTripper) : Option :=
  fun o =>
    match transport with
    | Some _ => options.mk (options.output o) transport
    | None => o
    end.

Definition New (fn : Func) (opts : list Option) : Handler :=
  let options :=
    fold_left (fun o opt => opt o) opts
      (options.mk (Some ioutil_Discard) (Some http_DefaultTransport)) in
  mkHandler fn (options.output options) (options.transport options).

(** *** Vocabulary of the statements *)

(** The request [reply] hands to the transport for a destination [url] and
    a serialized report [data]: the value of [httpReq] at the call of
    [RoundTrip] (see [reply_request]). *)
Definition put_request (ctx : Context) (url : string) (data : list byte)
  : HttpRequest :=
  HttpRequest.mk "PUT" url {[ "Content-Type" := ["application/json"] ]}
    data (Some ctx).

(** The progress lines of [replySuccess] and [replyFailure]. *)
Definition success_line (req : Request) (resp : Response) : string :=
  Request.LogicalResourceId req +:+ ": " +:+ Request.RequestType req
  +:+ " succeeded. PhysicalResourceId="
  +:+ Response.PhysicalResourceId resp +:+ nl.

Definition failure_line (req : Request) (reason : string) : string :=
  Request.LogicalResourceId req +:+ ": " +:+ Request.RequestType req
  +:+ " failed - " +:+ reason +:+ nl.

(** The report [Invoke] passes to [reply] for the way the call of the
    provisioning function ended: the [input] of [replySuccess] for a
    response without error, the [input] of [replyFailure] for an error or a
    recovered panic.  With neither response nor error (returned, or left by
    a panic whose [recover()] is nil) [replySuccess] dereferences the nil
    response and there is no report. *)
Definition report_of (req : Request) (out : FnOutcome) : option replyInput :=
  match out with
  | Returns _ (Some err) =>
      Some (replyInput.mk StatusFailed (Error err) EmptyString EmptyString
              EmptyString EmptyString None)
  | Panics (Some p) =>
      Some (replyInput.mk StatusFailed (Error (recovered p)) EmptyString
              EmptyString EmptyString EmptyString None)
  | Returns (Some resp) None =>
      Some (replyInput.mk StatusSuccess EmptyString
              (Response.PhysicalResourceId resp) (Request.StackId req)
              (Request.RequestId req) (Request.LogicalResourceId req)
              (Some (Response.Data resp)))
  | Returns None None => None
  | Panics None => None
  end.

(** What [Invoke] returns once [reply] has ended: no payload, and the error
    of [reply]. *)
Definition dispatched (r : result (option error))
  : result (option (list byte) * option error) :=
  match r with
  | Returned e => Returned (None, e)
  | Panicked p => Panicked p
  end.

(** The progress line [Invoke] writes for the way the call of the
    provisioning function ended: the line of [replySuccess] or of
    [replyFailure], as for [report_of]. *)
Definition progress_line (req : Request) (out : FnOutcome) : string :=
  match out with
  | Returns _ (Some err) => failure_line req (Error err)
  | Panics (Some p) => failure_line req (Error (recovered p))
  | Returns (Some resp) None => success_line req resp
  | Returns None None => EmptyString
  | Panics None => EmptyString
  end.

End Handler.

Arguments RoundTripper : clear implicits.
Arguments FnOutcome : clear implicits.
Arguments Func : clear implicits.
Arguments Handler : clear implicits.
Arguments event : clear implicits.
Arguments result : clear implicits.
Arguments M : clear implicits.
Arguments Option : clear implicits.
Arguments Returned {Value A} a.
Arguments Panicked {Value A} r.

(** ** Collaborators for concrete runs, after handler_test.go

    Stand-ins for the collaborators of the handler, as the tests set them
    up: a transport that answers every request with an empty "200 OK", a
    decoder and an encoder that know the documents of the tests, and
    provisioning functions that succeed, fail and panic.  Contexts are the
    background context alone, the values that are not errors are strings,
    and a writer is known by its name. *)

Definition quote : string := String "034"%char EmptyString.
Definition quoted (s : string) : string := quote +:+ s +:+ quote.
Definition member (name value : string) : string :=
  quoted name +:+ ":" +:+ value.

(** The request of the tests and its payload. *)
Definition test_request : Request.t :=
  Request.mk RequestTypeCreate "http://localhost" EmptyString EmptyString
    EmptyString "Resource" EmptyString None None.

(** A request of another stack, for another resource, with the same
    [ResponseURL]. *)
Definition other_stack_request : Request.t :=
  Request.mk RequestTypeUpdate "http://localhost" "stack-2" "request-2"
    "Custom::Other" "Other" "physical-id" None None.

(** A request to delete the same resource, with its physical identifier. *)
Definition delete_request : Request.t :=
  Request.mk RequestTypeDelete "http://localhost" EmptyString EmptyString
    "Custom::Thing" "Resource" "physical-id" None None.

Definition test_payload : list byte :=
  bytes_of
    ("{" +:+ member "RequestType" (quoted "Create")
     +:+ "," +:+ member "ResponseURL" (quoted "http://localhost")
     +:+ "," +:+ member "StackId" (quoted EmptyString)
     +:+ "," +:+ member "RequestId" (quoted EmptyString)
     +:+ "," +:+ member "ResourceType" (quoted EmptyString)
     +:+ "," +:+ member "LogicalResourceId" (quoted "Resource")
     +:+ "," +:+ member "PhysicalResourceId" (quoted EmptyString)
     +:+ "}").

(** A decoder that knows the payload of the tests and the empty object,
    and reports any other payload as truncated. *)
Definition test_Unmarshal (payload : list byte) : Request.t + error :=
  if String.eqb (string_of_list_byte payload) (string_of_list_byte test_payload)
  then inl test_request
  else if String.eqb (string_of_list_byte payload) "{}"
  then inl Request.zero
  else inr (other_error "*json.SyntaxError" "unexpected end of JSON input").

(** An encoder for reports whose strings need no escaping and whose [Data]
    has no entries. *)
Definition test_Marshal (input : replyInput.t string) : list byte + error :=
  match
    match replyInput.Data input with
    | None | Some None => Some "null"
    | Some (Some m) => if bool_decide (m = ∅) then Some "{}" else None
    end
  with
  | None =>
      inr (other_error "*json.UnsupportedValueError" "json: unsupported value")
  | Some data =>
      inl (bytes_of
             ("{" +:+ member "Status" (quoted (replyInput.Status input))
              +:+ "," +:+ member "Reason" (quoted (replyInput.Reason input))
              +:+ "," +:+ member "PhysicalResourceId"
                            (quoted (replyInput.PhysicalResourceId input))
              +:+ "," +:+ member "StackId" (quoted (replyInput.StackId input))
              +:+ "," +:+ member "RequestId"
                            (quoted (replyInput.RequestId input))
              +:+ "," +:+ member "LogicalResourceId"
                            (quoted (replyInput.LogicalResourceId input))
              +:+ "," +:+ member "Data" data +:+ "}"))
  end.

(** A URL check that refuses the URLs starting with a colon. *)
Definition test_Parse (url : string) : option error :=
  match url with
  | String ":" _ =>
      Some (other_error "*url.Error" "parse: missing protocol scheme")
  | _ => None
  end.

(** The transport of the tests: a recorder that answers 200. *)
Definition ok_200 : HttpResponse.t := HttpResponse.mk "200 OK" 200 [].

Definition recorder : RoundTripper unit := fun _ => inl ok_200.

(** A transport with no server behind it. *)
Definition connection_refused : error :=
  other_error "*net.OpError" "dial tcp: connection refused".

Definition refused : RoundTripper unit := fun _ => inr connection_refused.

(** A server that answers every request with a 500 and a body. *)
Definition broken_server : RoundTripper unit :=
  fun _ =>
    inl (HttpResponse.mk "500 Internal Server Error" 500 (bytes_of "oops")).

(** The library of the concrete runs; its default transport has no server
    to reach. *)
#[global] Instance test_library : Library unit string string := {
  fmt_v := id;
  ioutil_Discard := "ioutil.Discard";
  json_Unmarshal := test_Unmarshal;
  json_Marshal := test_Marshal;
  url_Parse := test_Parse;
  http_DefaultTransport := refused
}.

(** The provisioning functions of the tests; one that fails with an empty
    message, [errors.New("")]; one that returns neither response nor
    error. *)
Definition blah : Response.t string := Response.mk None "blah" false.

Definition fn_ok : Func unit string :=
  fun _ req => (req, Returns (Some blah) None).

Definition fn_no_echo : Func unit string :=
  fun _ req => (req, Returns (Some (Response.mk None "blah" true)) None).

Definition fn_boom : Func unit string :=
  fun _ req => (req, Returns None (Some (fmt_Errorf "boom"))).



(** A function that panics with nil, run so that [recover()] returns
    nil. *)
Definition fn_nil_panic : Func unit string :=
  fun _ req => (req, Panics None).

Definition fn_silent : Func unit string :=
  fun _ req => (req, Returns None (Some (fmt_Errorf EmptyString))).

Definition fn_nothing : Func unit string :=
  fun _ req => (req, Returns None None).

(** The handler of the tests:
    [New(fn, WithTransport(rt), WithOutput(os.Stdout))]. *)
Definition test_handler (f : Func unit string) : Handler unit string string :=
  New f [WithTransport (Some recorder); WithOutput (Some "os.Stdout")].

(** The reports of the three tests, and a report serialized. *)
Definition success_report : replyInput.t string :=
  replyInput.mk StatusSuccess EmptyString "blah" EmptyString EmptyString
    "Resource" (Some None).

Definition failure_report (reason : string) : replyInput.t string :=
  replyInput.mk StatusFailed reason EmptyString EmptyString EmptyString
    EmptyString None.

Definition serialized (input : replyInput.t string) : list byte :=
  match test_Marshal input with
  | inl data => data
  | inr _ => []
  end.

(** ** Properties *)

(** Rewriting with an equation stated under a [let]. *)
Ltac rewrite_zeta H :=
  let E := fresh "E" in
  pose proof H as E; cbv zeta in E; rewrite E; clear E.

Section Properties.

Context {Context Value Writer : Type} {L : Library Context Value Writer}.

Abbreviation Request := Request.t.
Abbreviation Response := (Response.t Value).
Abbreviation replyInput := (replyInput.t Value).
Abbreviation HttpRequest := (HttpRequest.t Context).
Abbreviation event := (event Context Writer).
Abbreviation Handler := (Handler Context Value Writer).
Abbreviation Func := (Func Context Value).
Abbreviation Option := (Option Context Writer).
Abbreviation RoundTripper := (RoundTripper Context).

Lemma round_trips_app (t t' : list event) :
  round_trips (t ++ t')%list = (round_trips t ++ round_trips t')%list.
Proof.
  induction t as [|e t IH]; [reflexivity|].
  destruct e; simpl; rewrite IH; reflexivity.
Qed.

Lemma reply_request (ctx : Context) (url : string) (data : list byte) :
  WithContext
    (Header_Set (HttpRequest.mk http_MethodPut url ∅ data None)
       "Content-Type" "application/json") ctx
  = put_request ctx url data.
Proof. reflexivity. Qed.

(** [reply], case by case. *)
Lemma reply_marshal_error h ctx req input e0 :
  json_Marshal input = inr e0 ->
  reply h ctx req input
  = ([], Returned (Some (fmt_Errorf "unable to marshal reply"))).
Proof. intros Hm. unfold reply. rewrite Hm. reflexivity. Qed.

Lemma reply_url_error h ctx req input data e :
  json_Marshal input = inl data ->
  url_Parse (Request.ResponseURL req) = Some e ->
  reply h ctx req input = ([], Returned (Some e)).
Proof.
  intros Hm Hu. unfold reply, http_NewRequest. rewrite Hm, Hu. reflexivity.
Qed.

Lemma reply_transport_error h ctx req input data rt e :
  json_Marshal input = inl data ->
  url_Parse (Request.ResponseURL req) = None ->
  transport h = Some rt ->
  rt (put_request ctx (Request.ResponseURL req) data) = inr e ->
  reply h ctx req input
  = ([RoundTripped (put_request ctx (Request.ResponseURL req) data)],
     Returned (Some e)).
Proof.
  intros Hm Hu Ht Hr. unfold reply, http_NewRequest.
  rewrite Hm, Hu, Ht, reply_request. simpl. rewrite Hr. reflexivity.
Qed.

Lemma reply_response h ctx req input data w rt httpResp :
  output h = Some w ->
  transport h = Some rt ->
  json_Marshal input = inl data ->
  url_Parse (Request.ResponseURL req) = None ->
  rt (put_request ctx (Request.ResponseURL req) data) = inl httpResp ->
  reply h ctx req input
  = ([RoundTripped (put_request ctx (Request.ResponseURL req) data);
      Written w (bytes_of (HttpResponse.Status httpResp +:+ nl));
      Written w (HttpResponse.Body httpResp)],
     Returned None).
Proof.
  intros Hw Ht Hm Hu Hr. unfold reply, http_NewRequest.
  rewrite Hm, Hu, Ht, Hw, reply_request. simpl. rewrite Hr. reflexivity.
Qed.

(** Whatever [reply] hands to the transport is the PUT of the serialized
    report to the request's [ResponseURL]. *)
Lemma reply_round_trips h ctx req input r :
  r ∈ round_trips (reply h ctx req input).1 ->
  exists data,
    json_Marshal input = inl data /\
    r = put_request ctx (Request.ResponseURL req) data.
Proof.
  unfold reply, http_NewRequest.
  destruct (json_Marshal input) as [data|e0]; [|intros H; inversion H].
  destruct (url_Parse _); [intros H; inversion H|].
  rewrite reply_request.
  destruct (transport h) as [rt|]; [|intros H; inversion H].
  simpl. destruct (rt _) as [httpResp|e]; simpl.
  - destruct (output h); simpl; intros H;
      apply list_elem_of_singleton in H; eauto.
  - intros H; apply list_elem_of_singleton in H; eauto.
Qed.

(** [replySuccess] and [replyFailure] write their progress line and go on
    with [reply]. *)
Lemma replySuccess_reply h ctx req resp w :
  output h = Some w ->
  let input :=
    replyInput.mk StatusSuccess EmptyString
      (Response.PhysicalResourceId resp) (Request.StackId req)
      (Request.RequestId req) (Request.LogicalResourceId req)
      (Some (Response.Data resp)) in
  replySuccess h ctx req (Some resp)
  = (Written w (bytes_of (success_line req resp))
       :: (reply h ctx req input).1,
     (reply h ctx req input).2).
Proof.
  intros Hw input. unfold replySuccess, fmt_Fprintf. rewrite Hw. simpl.
  fold (success_line req resp). fold input.
  destruct (reply h ctx req input) as [t r]. reflexivity.
Qed.

Lemma replyFailure_reply h ctx req reason w :
  output h = Some w ->
  let input :=
    replyInput.mk StatusFailed reason EmptyString EmptyString EmptyString
      EmptyString None in
  replyFailure h ctx req reason
  = (Written w (bytes_of (failure_line req reason))
       :: (reply h ctx req input).1,
     (reply h ctx req input).2).
Proof.
  intros Hw input. unfold replyFailure, fmt_Fprintf. rewrite Hw. simpl.
  fold (failure_line req reason). fold input.
  destruct (reply h ctx req input) as [t r]. reflexivity.
Qed.

Lemma replySuccess_round_trips h ctx req resp r :
  r ∈ round_trips (replySuccess h ctx req (Some resp)).1 ->
  exists data,
    json_Marshal
      (replyInput.mk StatusSuccess EmptyString
         (Response.PhysicalResourceId resp) (Request.StackId req)
         (Request.RequestId req) (Request.LogicalResourceId req)
         (Some (Response.Data resp))) = inl data /\
    r = put_request ctx (Request.ResponseURL req) data.
Proof.
  destruct (output h) as [w|] eqn:Hw.
  - rewrite_zeta (replySuccess_reply h ctx req resp w Hw). simpl.
    apply reply_round_trips.
  - unfold replySuccess, fmt_Fprintf. rewrite Hw. simpl.
    intros H; inversion H.
Qed.

Lemma replyFailure_round_trips h ctx req reason r :
  r ∈ round_trips (replyFailure h ctx req reason).1 ->
  exists data,
    json_Marshal
      (replyInput.mk StatusFailed reason EmptyString EmptyString
         EmptyString EmptyString None) = inl data /\
    r = put_request ctx (Request.ResponseURL req) data.
Proof.
  destruct (output h) as [w|] eqn:Hw.
  - rewrite_zeta (replyFailure_reply h ctx req reason w Hw). simpl.
    apply reply_round_trips.
  - unfold replyFailure, fmt_Fprintf. rewrite Hw. simpl.
    intros H; inversion H.
Qed.

(** [safeInvoke] calls the function once and always returns. *)
Lemma safeInvoke_returns h ctx req req' resp err :
  fn h ctx req = (req', Returns resp err) ->
  safeInvoke h ctx req = ([Called ctx req], Returned (req', resp, err)).
Proof. intros Hfn. unfold safeInvoke. rewrite Hfn. reflexivity. Qed.

Lemma safeInvoke_panics h ctx req req' p :
  fn h ctx req = (req', Panics (Some p)) ->
  safeInvoke h ctx req
  = ([Called ctx req], Returned (req', None, Some (recovered p))).
Proof. intros Hfn. unfold safeInvoke. rewrite Hfn. reflexivity. Qed.

Lemma safeInvoke_nil_panic h ctx req req' :
  fn h ctx req = (req', Panics None) ->
  safeInvoke h ctx req = ([Called ctx req], Returned (req', None, None)).
Proof. intros Hfn. unfold safeInvoke. rewrite Hfn. reflexivity. Qed.

Lemma safeInvoke_trace h ctx req :
  (safeInvoke h ctx req).1 = [Called ctx req].
Proof.
  unfold safeInvoke. destruct (fn h ctx req) as [req' [resp err|[p|]]];
    reflexivity.
Qed.

(** [Invoke] after a decoded payload: the call, then one of the two
    replies, whose error it returns. *)
Lemma Invoke_replySuccess h ctx payload req req' resp :
  json_Unmarshal payload = inl req ->
  (safeInvoke h ctx req).2 = Returned (req', resp, None) ->
  Invoke h ctx payload
  = (Called ctx req :: (replySuccess h ctx req' resp).1,
     dispatched (replySuccess h ctx req' resp).2).
Proof.
  intros Hdec Hs. unfold Invoke. rewrite Hdec.
  pose proof (safeInvoke_trace h ctx req) as Ht.
  destruct (safeInvoke h ctx req) as [t s]. simpl in Ht, Hs. subst t s.
  simpl. destruct (replySuccess h ctx req' resp) as [t [e|p]]; simpl;
    rewrite ?app_nil_r; reflexivity.
Qed.

Lemma Invoke_replyFailure h ctx payload req req' resp err :
  json_Unmarshal payload = inl req ->
  (safeInvoke h ctx req).2 = Returned (req', resp, Some err) ->
  Invoke h ctx payload
  = (Called ctx req :: (replyFailure h ctx req' (Error err)).1,
     dispatched (replyFailure h ctx req' (Error err)).2).
Proof.
  intros Hdec Hs. unfold Invoke. rewrite Hdec.
  pose proof (safeInvoke_trace h ctx req) as Ht.
  destruct (safeInvoke h ctx req) as [t s]. simpl in Ht, Hs. subst t s.
  simpl. destruct (replyFailure h ctx req' (Error err)) as [t [e|p]]; simpl;
    rewrite ?app_nil_r; reflexivity.
Qed.

(** What a failed call delivers, and what [Invoke] returns when the
    delivery goes through. *)
Lemma Invoke_failed h ctx payload req req' resp err :
  json_Unmarshal payload = inl req ->
  (safeInvoke h ctx req).2 = Returned (req', resp, Some err) ->
  let input :=
    replyInput.mk StatusFailed (Error err) EmptyString EmptyString
      EmptyString EmptyString None in
  (forall r, r ∈ round_trips (Invoke h ctx payload).1 ->
     exists data,
       json_Marshal input = inl data /\
       r = put_request ctx (Request.ResponseURL req') data) /\
  (forall w rt data httpResp,
     output h = Some w ->
     transport h = Some rt ->
     json_Marshal input = inl data ->
     url_Parse (Request.ResponseURL req') = None ->
     rt (put_request ctx (Request.ResponseURL req') data) = inl httpResp ->
     Invoke h ctx payload
     = ([Called ctx req;
         Written w (bytes_of (failure_line req' (Error err)));
         RoundTripped (put_request ctx (Request.ResponseURL req') data);
         Written w (bytes_of (HttpResponse.Status httpResp +:+ nl));
         Written w (HttpResponse.Body httpResp)],
        Returned (None, None))).
Proof.
  intros Hdec Hs input.
  rewrite (Invoke_replyFailure h ctx payload req req' resp err Hdec Hs).
  split.
  - simpl. apply replyFailure_round_trips.
  - intros w rt data httpResp Hw Ht Hm Hu Hr.
    rewrite_zeta (replyFailure_reply h ctx req' (Error err) w Hw). fold input.
    rewrite (reply_response h ctx req' input data w rt httpResp Hw Ht Hm Hu Hr).
    reflexivity.
Qed.

(** *** The claims about [Invoke] and [reply] *)

(** C1.  When the payload decodes and the provisioning function returns a
    response and no error, the only request [Invoke] hands to the transport
    is the PUT, to the request's [ResponseURL], of the serialized report
    with [Status = SUCCESS], [PhysicalResourceId] and [Data] of the response
    and [StackId], [RequestId], [LogicalResourceId] of the request (read
    from the request as the function left it); and when the transport
    answers, [Invoke] has called the function once, sent that one request
    and returns no payload and no error. *)
Theorem Invoke_success_report h ctx payload req req' resp :
  json_Unmarshal payload = inl req ->
  fn h ctx req = (req', Returns (Some resp) None) ->
  let input :=
    {| replyInput.Status := StatusSuccess;
       replyInput.Reason := EmptyString;
       replyInput.PhysicalResourceId := Response.PhysicalResourceId resp;
       replyInput.StackId := Request.StackId req';
       replyInput.RequestId := Request.RequestId req';
       replyInput.LogicalResourceId := Request.LogicalResourceId req';
       replyInput.Data := Some (Response.Data resp) |} in
  (forall r, r ∈ round_trips (Invoke h ctx payload).1 ->
     exists data,
       json_Marshal input = inl data /\
       r = put_request ctx (Request.ResponseURL req') data) /\
  (forall w rt data httpResp,
     output h = Some w ->
     transport h = Some rt ->
     json_Marshal input = inl data ->
     url_Parse (Request.ResponseURL req') = None ->
     rt (put_request ctx (Request.ResponseURL req') data) = inl httpResp ->
     Invoke h ctx payload
     = ([Called ctx req;
         Written w (bytes_of (success_line req' resp));
         RoundTripped (put_request ctx (Request.ResponseURL req') data);
         Written w (bytes_of (HttpResponse.Status httpResp +:+ nl));
         Written w (HttpResponse.Body httpResp)],
        Returned (None, None))).
Proof.
  intros Hdec Hfn input.
  assert (Hs : (safeInvoke h ctx req).2 = Returned (req', Some resp, None))
    by (rewrite (safeInvoke_returns _ _ _ _ _ _ Hfn); reflexivity).
  rewrite (Invoke_replySuccess h ctx payload req req' (Some resp) Hdec Hs).
  split.
  - simpl. apply replySuccess_round_trips.
  - intros w rt data httpResp Hw Ht Hm Hu Hr.
    rewrite_zeta (replySuccess_reply h ctx req' resp w Hw). fold input.
    rewrite (reply_response h ctx req' input data w rt httpResp Hw Ht Hm Hu Hr).
    reflexivity.
Qed.

(** C2.  When the payload decodes and the provisioning function returns an
    error [err], the only request [Invoke] hands to the transport carries
    the serialized report with [Status = FAILED] and [Reason = err.Error()];
    when the transport answers, [Invoke] returns no error; and in every case
    the error [Invoke] returns is the one of [replyFailure], never [err]
    passed on by [Invoke] itself. *)
Theorem Invoke_error_report h ctx payload req req' resp err :
  json_Unmarshal payload = inl req ->
  fn h ctx req = (req', Returns resp (Some err)) ->
  let input :=
    {| replyInput.Status := StatusFailed;
       replyInput.Reason := Error err;
       replyInput.PhysicalResourceId := EmptyString;
       replyInput.StackId := EmptyString;
       replyInput.RequestId := EmptyString;
       replyInput.LogicalResourceId := EmptyString;
       replyInput.Data := None |} in
  (forall r, r ∈ round_trips (Invoke h ctx payload).1 ->
     exists data,
       json_Marshal input = inl data /\
       r = put_request ctx (Request.ResponseURL req') data) /\
  (forall w rt data httpResp,
     output h = Some w ->
     transport h = Some rt ->
     json_Marshal input = inl data ->
     url_Parse (Request.ResponseURL req') = None ->
     rt (put_request ctx (Request.ResponseURL req') data) = inl httpResp ->
     Invoke h ctx payload
     = ([Called ctx req;
         Written w (bytes_of (failure_line req' (Error err)));
         RoundTripped (put_request ctx (Request.ResponseURL req') data);
         Written w (bytes_of (HttpResponse.Status httpResp +:+ nl));
         Written w (HttpResponse.Body httpResp)],
        Returned (None, None))) /\
  (Invoke h ctx payload).2
  = dispatched (replyFailure h ctx req' (Error err)).2.
Proof.
  intros Hdec Hfn input.
  assert (Hs : (safeInvoke h ctx req).2 = Returned (req', resp, Some err))
    by (rewrite (safeInvoke_returns _ _ _ _ _ _ Hfn); reflexivity).
  destruct (Invoke_failed h ctx payload req req' resp err Hdec Hs) as [H1 H2].
  split; [exact H1|]. split; [exact H2|].
  rewrite (Invoke_replyFailure h ctx payload req req' resp err Hdec Hs).
  reflexivity.
Qed.


(** C4.  When the payload does not decode, [Invoke] returns the decode
    error at once: its trace is empty, so the provisioning function was not
    called, nothing was handed to the transport and nothing was written. *)
Theorem Invoke_decode_error h ctx payload err :
  json_Unmarshal payload = inr err ->
  Invoke h ctx payload = ([], Returned (None, Some err)) /\
  calls (Invoke h ctx payload).1 = [] /\
  round_trips (Invoke h ctx payload).1 = [].
Proof.
  intros Hdec. unfold Invoke. rewrite Hdec. repeat split.
Qed.

(** C5.  When the payload decodes and the call of the provisioning function
    ends in a report (for a response, an error or a recovered panic),
    [Invoke]
    returns the error of the delivery step [reply]: the error "unable to
    marshal reply" when the report cannot be serialized, the error of
    [http.NewRequest] when the request cannot be built, and the error of
    the transport when [RoundTrip] fails. *)
Theorem Invoke_returns_delivery_error h ctx payload req req' out input w :
  json_Unmarshal payload = inl req ->
  fn h ctx req = (req', out) ->
  report_of req' out = Some input ->
  output h = Some w ->
  (Invoke h ctx payload).2 = dispatched (reply h ctx req' input).2 /\
  (forall e0,
     json_Marshal input = inr e0 ->
     (Invoke h ctx payload).2
     = Returned (None, Some (fmt_Errorf "unable to marshal reply"))) /\
  (forall data e,
     json_Marshal input = inl data ->
     url_Parse (Request.ResponseURL req') = Some e ->
     (Invoke h ctx payload).2 = Returned (None, Some e)) /\
  (forall data rt e,
     json_Marshal input = inl data ->
     url_Parse (Request.ResponseURL req') = None ->
     transport h = Some rt ->
     rt (put_request ctx (Request.ResponseURL req') data) = inr e ->
     (Invoke h ctx payload).2 = Returned (None, Some e)).
Proof.
  intros Hdec Hfn Hrep Hw.
  assert (Hinput :
    (Invoke h ctx payload).2 = dispatched (reply h ctx req' input).2).
  { destruct out as [[resp|] [err|]|[p|]]; simpl in Hrep;
      try discriminate; injection Hrep as <-.
    - rewrite (Invoke_replyFailure h ctx payload req req' (Some resp) err Hdec)
        by (rewrite (safeInvoke_returns _ _ _ _ _ _ Hfn); reflexivity).
      rewrite_zeta (replyFailure_reply h ctx req' (Error err) w Hw).
      reflexivity.
    - rewrite (Invoke_replySuccess h ctx payload req req' (Some resp) Hdec)
        by (rewrite (safeInvoke_returns _ _ _ _ _ _ Hfn); reflexivity).
      rewrite_zeta (replySuccess_reply h ctx req' resp w Hw).
      reflexivity.
    - rewrite (Invoke_replyFailure h ctx payload req req' None err Hdec)
        by (rewrite (safeInvoke_returns _ _ _ _ _ _ Hfn); reflexivity).
      rewrite_zeta (replyFailure_reply h ctx req' (Error err) w Hw).
      reflexivity.
    - rewrite (Invoke_replyFailure h ctx payload req req' None (recovered p)
                 Hdec)
        by (rewrite (safeInvoke_panics _ _ _ _ _ Hfn); reflexivity).
      rewrite_zeta (replyFailure_reply h ctx req' (Error (recovered p)) w Hw).
      reflexivity. }
  split; [exact Hinput|]. rewrite Hinput. repeat split.
  - intros e0 Hm. rewrite (reply_marshal_error _ _ _ _ _ Hm). reflexivity.
  - intros data e Hm Hu.
    rewrite (reply_url_error _ _ _ _ _ _ Hm Hu). reflexivity.
  - intros data rt e Hm Hu Ht Hr.
    rewrite (reply_transport_error _ _ _ _ _ _ _ Hm Hu Ht Hr). reflexivity.
Qed.

(** C6.  When the transport returns a response, whatever its status code,
    [reply] returns no error, and after the request it has written the
    status line (with a newline) and then the body to the handler's
    output. *)
Theorem reply_any_status_code h ctx req input data w rt status code body :
  output h = Some w ->
  transport h = Some rt ->
  json_Marshal input = inl data ->
  url_Parse (Request.ResponseURL req) = None ->
  rt (put_request ctx (Request.ResponseURL req) data)
  = inl (HttpResponse.mk status code body) ->
  reply h ctx req input
  = ([RoundTripped (put_request ctx (Request.ResponseURL req) data);
      Written w (bytes_of (status +:+ nl));
      Written w body],
     Returned None) /\
  (forall is_w, is_w w = true ->
     written is_w (reply h ctx req input).1
     = (bytes_of (status +:+ nl) ++ body)%list).
Proof.
  intros Hw Ht Hm Hu Hr.
  rewrite (reply_response h ctx req input data w rt _ Hw Ht Hm Hu Hr).
  split; [reflexivity|].
  intros is_w His. simpl. rewrite His, app_nil_r. reflexivity.
Qed.

(** C7.  After a provisioning error or a contained panic, every request
    handed to the transport carries the serialization of the report in
    which only [Status] (FAILED) and [Reason] are set: [PhysicalResourceId],
    [StackId], [RequestId] and [LogicalResourceId] are empty and [Data] is
    nil, whatever the request holds. *)
Theorem failure_report_fields h ctx payload req req' resp err :
  json_Unmarshal payload = inl req ->
  (safeInvoke h ctx req).2 = Returned (req', resp, Some err) ->
  forall r, r ∈ round_trips (Invoke h ctx payload).1 ->
    json_Marshal
      {| replyInput.Status := StatusFailed;
         replyInput.Reason := Error err;
         replyInput.PhysicalResourceId := EmptyString;
         replyInput.StackId := EmptyString;
         replyInput.RequestId := EmptyString;
         replyInput.LogicalResourceId := EmptyString;
         replyInput.Data := None |}
    = inl (HttpRequest.Body r).
Proof.
  intros Hdec Hs r Hr.
  destruct (Invoke_failed h ctx payload req req' resp err Hdec Hs) as [H _].
  destruct (H r Hr) as [data [Hm ->]]. exact Hm.
Qed.

(** C8, as amended.  After a provisioning error or a recovered panic,
    every report handed to the transport has [Status = FAILED] and, as
    [Reason], the message of the error returned or recovered, whatever
    that message is: [Reason] is non-empty whenever the message is
    non-empty.  The message of the error made for a panic value that is
    not an error is never empty. *)
Theorem failed_reason_nonempty h ctx payload req req' resp err :
  json_Unmarshal payload = inl req ->
  (safeInvoke h ctx req).2 = Returned (req', resp, Some err) ->
  (forall r, r ∈ round_trips (Invoke h ctx payload).1 ->
     exists reason,
       reason = Error err /\
       (Error err <> EmptyString -> reason <> EmptyString) /\
       json_Marshal
         {| replyInput.Status := StatusFailed;
            replyInput.Reason := reason;
            replyInput.PhysicalResourceId := EmptyString;
            replyInput.StackId := EmptyString;
            replyInput.RequestId := EmptyString;
            replyInput.LogicalResourceId := EmptyString;
            replyInput.Data := None |}
       = inl (HttpRequest.Body r)) /\
  (forall x : Value, Error (recovered (any_other x)) <> EmptyString).
Proof.
  intros Hdec Hs. split.
  - intros r Hr.
    destruct (Invoke_failed h ctx payload req req' resp err Hdec Hs) as [H _].
    destruct (H r Hr) as [data [Hm ->]].
    exists (Error err). split; [reflexivity|].
    split; [intros Hne; exact Hne|exact Hm].
  - intros x. simpl. discriminate.
Qed.

(** *** The claim about [New] *)

Lemma options_fold_never_nil (opts : list Option)
  (o : options.t Writer RoundTripper) :
  Forall (fun opt =>
            (exists w, opt = WithOutput w) \/
            (exists t, opt = WithTransport t)) opts ->
  options.output o <> None ->
  options.transport o <> None ->
  options.output (fold_left (fun o opt => opt o) opts o) <> None /\
  options.transport (fold_left (fun o opt => opt o) opts o) <> None.
Proof.
  intros Hopts. revert o.
  induction Hopts as [|opt opts Hopt _ IH]; intros o Ho Ht;
    [split; assumption|].
  simpl. apply IH.
  - destruct Hopt as [[w ->]|[t ->]].
    + destruct w; [discriminate|exact Ho].
    + destruct t; exact Ho.
  - destruct Hopt as [[w ->]|[t ->]].
    + destruct w; exact Ht.
    + destruct t; [discriminate|exact Ht].
Qed.

(** C10.  For every list of options made by [WithOutput] and
    [WithTransport], with whatever arguments, the handler [New] builds has
    an output and a transport that are not nil; [WithOutput(nil)] and
    [WithTransport(nil)] change nothing, wherever they stand in the list,
    so that alone they leave the defaults [ioutil.Discard] and
    [http.DefaultTransport] in place. *)
Theorem New_never_nil (f : Func) (opts : list Option) :
  Forall (fun opt =>
            (exists w, opt = WithOutput w) \/
            (exists t, opt = WithTransport t)) opts ->
  (output (New f opts) <> None /\ transport (New f opts) <> None) /\
  (forall before after,
     New f (before ++ WithOutput None :: after)%list
     = New f (before ++ after)%list) /\
  (forall before after,
     New f (before ++ WithTransport None :: after)%list
     = New f (before ++ after)%list) /\
  New f [WithOutput None; WithTransport None]
  = mkHandler f (Some ioutil_Discard) (Some http_DefaultTransport).
Proof.
  intros Hopts. split.
  - unfold New. simpl.
    apply options_fold_never_nil; [exact Hopts|discriminate|discriminate].
  - repeat split.
    + intros before after. unfold New. rewrite !fold_left_app. reflexivity.
    + intros before after. unfold New. rewrite !fold_left_app. reflexivity.
Qed.

(** *** Further properties of [Invoke] *)

Lemma reply_single_attempt h ctx req input :
  calls (reply h ctx req input).1 = [] /\
  length (round_trips (reply h ctx req input).1) <= 1.
Proof.
  unfold reply, http_NewRequest, fmt_Fprintln, fmt_Fprintf, io_Copy, deref.
  destruct (json_Marshal input) as [data|e0];
    [|simpl; split; [reflexivity|lia]].
  destruct (url_Parse _); [simpl; split; [reflexivity|lia]|].
  destruct (transport h) as [rt|]; [|simpl; split; [reflexivity|lia]].
  simpl. destruct (rt _) as [httpResp|e]; [|simpl; split; [reflexivity|lia]].
  destruct (output h); simpl; split; try reflexivity; lia.
Qed.

Lemma replySuccess_single_attempt h ctx req resp :
  calls (replySuccess h ctx req resp).1 = [] /\
  length (round_trips (replySuccess h ctx req resp).1) <= 1.
Proof.
  destruct resp as [resp|]; [|simpl; split; [reflexivity|lia]].
  destruct (output h) as [w|] eqn:Hw.
  - rewrite_zeta (replySuccess_reply h ctx req resp w Hw). simpl.
    apply reply_single_attempt.
  - unfold replySuccess, fmt_Fprintf. rewrite Hw. simpl.
    split; [reflexivity|lia].
Qed.

Lemma replyFailure_single_attempt h ctx req reason :
  calls (replyFailure h ctx req reason).1 = [] /\
  length (round_trips (replyFailure h ctx req reason).1) <= 1.
Proof.
  destruct (output h) as [w|] eqn:Hw.
  - rewrite_zeta (replyFailure_reply h ctx req reason w Hw). simpl.
    apply reply_single_attempt.
  - unfold replyFailure, fmt_Fprintf. rewrite Hw. simpl.
    split; [reflexivity|lia].
Qed.

Lemma safeInvoke_result h ctx req :
  exists resp err,
    (safeInvoke h ctx req).2 = Returned ((fn h ctx req).1, resp, err).
Proof.
  unfold safeInvoke. destruct (fn h ctx req) as [req' [resp err|[p|]]];
    simpl; eauto.
Qed.

(** X1.  When the provisioning function returns neither a response nor an
    error, [Invoke] panics with a nil dereference in [replySuccess], after
    the call and before anything is written or sent. *)
Theorem Invoke_nil_response h ctx payload req req' :
  json_Unmarshal payload = inl req ->
  fn h ctx req = (req', Returns None None) ->
  Invoke h ctx payload
  = ([Called ctx req], Panicked (any_error nil_dereference)).
Proof.
  intros Hdec Hfn.
  rewrite (Invoke_replySuccess h ctx payload req req' None Hdec)
    by (rewrite (safeInvoke_returns _ _ _ _ _ _ Hfn); reflexivity).
  reflexivity.
Qed.

(** X2.  One invocation calls the provisioning function exactly once when
    the payload decodes (with the decoded request) and not at all
    otherwise, and hands at most one request to the transport. *)
Theorem Invoke_single_attempt h ctx payload :
  calls (Invoke h ctx payload).1
  = match json_Unmarshal payload with
    | inl req => [req]
    | inr _ => []
    end /\
  length (round_trips (Invoke h ctx payload).1) <= 1.
Proof.
  destruct (json_Unmarshal payload) as [req|e] eqn:Hdec.
  - destruct (safeInvoke_result h ctx req) as [resp [[err|] Hs]].
    + rewrite (Invoke_replyFailure h ctx payload req _ resp err Hdec Hs).
      simpl.
      destruct (replyFailure_single_attempt h ctx (fn h ctx req).1 (Error err))
        as [-> Hlen].
      split; [reflexivity|exact Hlen].
    + rewrite (Invoke_replySuccess h ctx payload req _ resp Hdec Hs).
      simpl.
      destruct (replySuccess_single_attempt h ctx (fn h ctx req).1 resp)
        as [-> Hlen].
      split; [reflexivity|exact Hlen].
  - unfold Invoke. rewrite Hdec. simpl. split; [reflexivity|lia].
Qed.

(** X3.  Every request [Invoke] hands to the transport is a PUT, with the
    header [Content-Type: application/json] and the context of the
    invocation, to the [ResponseURL] of the decoded request as the
    provisioning function left it. *)
Theorem Invoke_put_request h ctx payload r :
  r ∈ round_trips (Invoke h ctx payload).1 ->
  HttpRequest.Method r = "PUT" /\
  HttpRequest.Header r !! "Content-Type" = Some ["application/json"] /\
  HttpRequest.Ctx r = Some ctx /\
  exists req,
    json_Unmarshal payload = inl req /\
    HttpRequest.URL r = Request.ResponseURL (fn h ctx req).1.
Proof.
  intros Hr.
  destruct (json_Unmarshal payload) as [req|e] eqn:Hdec.
  - assert (Hput : exists data,
              r = put_request ctx (Request.ResponseURL (fn h ctx req).1) data).
    { destruct (safeInvoke_result h ctx req) as [resp [[err|] Hs]].
      + rewrite (Invoke_replyFailure h ctx payload req _ resp err Hdec Hs)
          in Hr.
        simpl in Hr. apply replyFailure_round_trips in Hr.
        destruct Hr as [data [_ ->]]. eauto.
      + rewrite (Invoke_replySuccess h ctx payload req _ resp Hdec Hs) in Hr.
        simpl in Hr. destruct resp as [resp|]; [|inversion Hr].
        apply replySuccess_round_trips in Hr.
        destruct Hr as [data [_ ->]]. eauto. }
    destruct Hput as [data ->]. repeat split. eauto.
  - unfold Invoke in Hr. rewrite Hdec in Hr. inversion Hr.
Qed.



(** *** [reply] and [Invoke] in full *)

(** [reply], by the results of the calls it makes, in their order. *)
Lemma reply_unfold h ctx req input :
  reply h ctx req input
  = match json_Marshal input with
    | inr _ => ([], Returned (Some (fmt_Errorf "unable to marshal reply")))
    | inl data =>
        match url_Parse (Request.ResponseURL req) with
        | Some e => ([], Returned (Some e))
        | None =>
            let r := put_request ctx (Request.ResponseURL req) data in
            match transport h with
            | None => ([], Panicked (any_error nil_dereference))
            | Some rt =>
                match rt r with
                | inr e => ([RoundTripped r], Returned (Some e))
                | inl httpResp =>
                    match output h with
                    | None =>
                        ([RoundTripped r],
                         Panicked (any_error nil_dereference))
                    | Some w =>
                        ([RoundTripped r;
                          Written w
                            (bytes_of (HttpResponse.Status httpResp +:+ nl));
                          Written w (HttpResponse.Body httpResp)],
                         Returned None)
                    end
                end
            end
        end
    end.
Proof.
  unfold reply, http_NewRequest.
  destruct (json_Marshal input) as [data|e0]; [|reflexivity].
  destruct (url_Parse _); [reflexivity|].
  rewrite reply_request. cbv zeta.
  destruct (transport h) as [rt|]; [|reflexivity].
  simpl. destruct (rt _) as [httpResp|e]; [|reflexivity].
  destruct (output h); reflexivity.
Qed.

(** [Invoke] on a payload that decodes: the call, the progress line, then
    [reply]; or a nil dereference right after the call, when there is
    neither response nor error or when the handler has no output. *)
Lemma Invoke_unfold h ctx payload req :
  json_Unmarshal payload = inl req ->
  Invoke h ctx payload
  = match report_of (fn h ctx req).1 (fn h ctx req).2, output h with
    | Some input, Some w =>
        (Called ctx req
           :: Written w
                (bytes_of (progress_line (fn h ctx req).1 (fn h ctx req).2))
           :: (reply h ctx (fn h ctx req).1 input).1,
         dispatched (reply h ctx (fn h ctx req).1 input).2)
    | _, _ => ([Called ctx req], Panicked (any_error nil_dereference))
    end.
Proof.
  intros Hdec.
  destruct (fn h ctx req) as [req' out] eqn:Hfn. simpl.
  destruct out as [[resp|] [err|]|[p|]]; simpl.
  - rewrite (Invoke_replyFailure h ctx payload req req' (Some resp) err Hdec)
      by (rewrite (safeInvoke_returns _ _ _ _ _ _ Hfn); reflexivity).
    destruct (output h) as [w|] eqn:Hw.
    + rewrite_zeta (replyFailure_reply h ctx req' (Error err) w Hw).
      reflexivity.
    + unfold replyFailure, fmt_Fprintf. rewrite Hw. reflexivity.
  - rewrite (Invoke_replySuccess h ctx payload req req' (Some resp) Hdec)
      by (rewrite (safeInvoke_returns _ _ _ _ _ _ Hfn); reflexivity).
    destruct (output h) as [w|] eqn:Hw.
    + rewrite_zeta (replySuccess_reply h ctx req' resp w Hw). reflexivity.
    + unfold replySuccess, fmt_Fprintf. rewrite Hw. reflexivity.
  - rewrite (Invoke_replyFailure h ctx payload req req' None err Hdec)
      by (rewrite (safeInvoke_returns _ _ _ _ _ _ Hfn); reflexivity).
    destruct (output h) as [w|] eqn:Hw.
    + rewrite_zeta (replyFailure_reply h ctx req' (Error err) w Hw).
      reflexivity.
    + unfold replyFailure, fmt_Fprintf. rewrite Hw. reflexivity.
  - rewrite (Invoke_replySuccess h ctx payload req req' None Hdec)
      by (rewrite (safeInvoke_returns _ _ _ _ _ _ Hfn); reflexivity).
    destruct (output h); reflexivity.
  - rewrite (Invoke_replyFailure h ctx payload req req' None (recovered p)
               Hdec)
      by (rewrite (safeInvoke_panics _ _ _ _ _ Hfn); reflexivity).
    destruct (output h) as [w|] eqn:Hw.
    + rewrite_zeta (replyFailure_reply h ctx req' (Error (recovered p)) w Hw).
      reflexivity.
    + unfold replyFailure, fmt_Fprintf. rewrite Hw. reflexivity.
  - rewrite (Invoke_replySuccess h ctx payload req req' None Hdec)
      by (rewrite (safeInvoke_nil_panic _ _ _ _ Hfn); reflexivity).
    destruct (output h); reflexivity.
Qed.

Lemma elem_of_trace_inv (e : event) (t : list event) (P : Prop) :
  e ∈ t -> Forall (fun e' => e = e' -> P) t -> P.
Proof.
  intros He Hall. rewrite Forall_forall in Hall.
  exact (Hall e He eq_refl).
Qed.

(** X5.  Whenever [Invoke] returns, the payload it returns is nil. *)
Theorem Invoke_no_payload h ctx payload b e :
  (Invoke h ctx payload).2 = Returned (b, e) -> b = None.
Proof.
  destruct (json_Unmarshal payload) as [req|err] eqn:Hdec.
  - rewrite (Invoke_unfold h ctx payload req Hdec).
    destruct (report_of _ _) as [input|]; [|discriminate].
    destruct (output h) as [w|]; [|discriminate].
    simpl. destruct (reply h ctx _ input).2 as [x|p]; simpl; [|discriminate].
    intros H; injection H as <- _; reflexivity.
  - unfold Invoke. rewrite Hdec. simpl.
    intros H; injection H as <- _; reflexivity.
Qed.

(** X6.  An error returned by [Invoke] is the decode error, or an error of
    the delivery: the error "unable to marshal reply" for a report
    [json.Marshal] refused, the error of the URL check, or the error the
    transport returned for the one request it was handed.  It is never
    taken from the provisioning function. *)
Theorem Invoke_error_provenance h ctx payload b e :
  (Invoke h ctx payload).2 = Returned (b, Some e) ->
  json_Unmarshal payload = inr e \/
  exists req input,
    json_Unmarshal payload = inl req /\
    report_of (fn h ctx req).1 (fn h ctx req).2 = Some input /\
    ((e = fmt_Errorf "unable to marshal reply" /\
      exists e0, json_Marshal input = inr e0) \/
     url_Parse (Request.ResponseURL (fn h ctx req).1) = Some e \/
     exists rt r,
       transport h = Some rt /\
       round_trips (Invoke h ctx payload).1 = [r] /\
       rt r = inr e).
Proof.
  destruct (json_Unmarshal payload) as [req|err] eqn:Hdec.
  - rewrite (Invoke_unfold h ctx payload req Hdec).
    destruct (report_of _ _) as [input|] eqn:Hrep; [|discriminate].
    destruct (output h) as [w|] eqn:Hw; [|discriminate].
    rewrite reply_unfold, Hw. intros H. right. exists req, input.
    split; [reflexivity|]. split; [exact Hrep|]. revert H.
    destruct (json_Marshal input) as [data|e0]; simpl.
    + destruct (url_Parse _) as [e'|]; simpl.
      * intros H; injection H as _ <-. right. left. reflexivity.
      * destruct (transport h) as [rt|]; simpl; [|discriminate].
        destruct (rt _) as [httpResp|e'] eqn:Hrt; simpl; [discriminate|].
        intros H; injection H as _ <-. right. right.
        eexists rt, _. split; [reflexivity|]. split; [reflexivity|exact Hrt].
    + intros H; injection H as _ <-. left. split; [reflexivity|eauto].
  - unfold Invoke. rewrite Hdec. simpl.
    intros H; injection H as _ <-. left. reflexivity.
Qed.

(** X7.  When [Invoke] returns without error, the payload was decoded and
    exactly one request was handed to the transport, which answered with a
    response; the body of that request is the serialized report of the
    call. *)
Theorem Invoke_nil_error_delivered h ctx payload b :
  (Invoke h ctx payload).2 = Returned (b, None) ->
  exists req input rt r httpResp,
    json_Unmarshal payload = inl req /\
    report_of (fn h ctx req).1 (fn h ctx req).2 = Some input /\
    transport h = Some rt /\
    round_trips (Invoke h ctx payload).1 = [r] /\
    json_Marshal input = inl (HttpRequest.Body r) /\
    HttpRequest.URL r = Request.ResponseURL (fn h ctx req).1 /\
    rt r = inl httpResp.
Proof.
  destruct (json_Unmarshal payload) as [req|err] eqn:Hdec.
  - rewrite (Invoke_unfold h ctx payload req Hdec).
    destruct (report_of _ _) as [input|] eqn:Hrep; [|discriminate].
    destruct (output h) as [w|] eqn:Hw; [|discriminate].
    rewrite reply_unfold, Hw.
    destruct (json_Marshal input) as [data|e0] eqn:Hm; simpl; [|discriminate].
    destruct (url_Parse _) as [e'|]; simpl; [discriminate|].
    destruct (transport h) as [rt|]; simpl; [|discriminate].
    destruct (rt _) as [httpResp|e'] eqn:Hrt; simpl; [|discriminate].
    intros _. eexists req, input, rt, _, httpResp.
    split; [reflexivity|]. split; [exact Hrep|]. split; [reflexivity|].
    split; [reflexivity|]. split; [exact Hm|]. split; [reflexivity|exact Hrt].
  - unfold Invoke. rewrite Hdec. simpl. discriminate.
Qed.

(** X9.  A handler without output (for one, the zero [Handler]) panics in
    [Invoke] for every payload that decodes: with a nil dereference, right
    after the call of the provisioning function and before anything is
    handed to the transport. *)
Theorem Invoke_without_output h ctx payload req :
  output h = None ->
  json_Unmarshal payload = inl req ->
  Invoke h ctx payload
  = ([Called ctx req], Panicked (any_error nil_dereference)).
Proof.
  intros Hw Hdec. rewrite (Invoke_unfold h ctx payload req Hdec), Hw.
  destruct (report_of _ _); reflexivity.
Qed.

(** X10.  [Invoke] writes to the output of the handler and to no other
    writer. *)
Theorem Invoke_writes_to_output h ctx payload w data :
  Written w data ∈ (Invoke h ctx payload).1 -> output h = Some w.
Proof.
  destruct (json_Unmarshal payload) as [req|err] eqn:Hdec.
  - rewrite (Invoke_unfold h ctx payload req Hdec).
    destruct (report_of _ _) as [input|];
      destruct (output h) as [w'|] eqn:Hw;
      rewrite ?reply_unfold, ?Hw; cbv zeta;
      repeat case_match; simpl; intros Hin;
      apply (elem_of_trace_inv _ _ _ Hin); repeat constructor; congruence.
  - unfold Invoke. rewrite Hdec. simpl. intros H; inversion H.
Qed.

Lemma reply_same_handler h h' ctx req input :
  output h = output h' ->
  transport h = transport h' ->
  reply h ctx req input = reply h' ctx req input.
Proof. intros Ho Ht. rewrite !reply_unfold, Ho, Ht. reflexivity. Qed.

(** X4.  [NoEcho] is never read: two provisioning functions whose
    responses differ in [NoEcho] alone make [Invoke] write the same line,
    send the same request and return the same result. *)
Theorem Invoke_ignores_NoEcho h h' ctx payload req req' data id
  noEcho noEcho' :
  output h = output h' ->
  transport h = transport h' ->
  json_Unmarshal payload = inl req ->
  fn h ctx req = (req', Returns (Some (Response.mk data id noEcho)) None) ->
  fn h' ctx req = (req', Returns (Some (Response.mk data id noEcho')) None) ->
  Invoke h ctx payload = Invoke h' ctx payload.
Proof.
  intros Ho Ht Hdec Hfn Hfn'.
  rewrite (Invoke_unfold h ctx payload req Hdec),
    (Invoke_unfold h' ctx payload req Hdec), Hfn, Hfn'. simpl.
  rewrite (reply_same_handler h h' ctx req' _ Ho Ht), Ho. reflexivity.
Qed.

(** X11.  When the call of the provisioning function ends in a report and
    the handler has an output, [Invoke] writes the progress line right
    after the call and before [reply]; and when [Invoke] then returns an
    error, the progress line is all it has written: the failed delivery
    leaves nothing on the output. *)
Theorem Invoke_progress_line h ctx payload req req' out input w :
  json_Unmarshal payload = inl req ->
  fn h ctx req = (req', out) ->
  report_of req' out = Some input ->
  output h = Some w ->
  (Invoke h ctx payload).1
  = Called ctx req
      :: Written w (bytes_of (progress_line req' out))
      :: (reply h ctx req' input).1 /\
  (forall e is_w,
     (Invoke h ctx payload).2 = Returned (None, Some e) ->
     is_w w = true ->
     written is_w (Invoke h ctx payload).1
     = bytes_of (progress_line req' out)).
Proof.
  intros Hdec Hfn Hrep Hw.
  rewrite (Invoke_unfold h ctx payload req Hdec), Hfn. simpl.
  rewrite Hrep, Hw. simpl. split; [reflexivity|].
  intros e is_w. rewrite reply_unfold, Hw. cbv zeta.
  repeat case_match; simpl; try discriminate;
    intros _ _; rewrite app_nil_r; reflexivity.
Qed.

(** X12.  [New] keeps the function it is given, and of the options the
    last one that is not nil wins: a final [WithOutput(w)] sets the output
    to [w] and leaves the transport of the options before it, a final
    [WithTransport(t)] sets the transport to [t] and leaves the output;
    without options the handler has the defaults. *)
Theorem New_last_option_wins (f : Func) (opts : list Option) :
  fn (New f opts) = f /\
  (forall w,
     output (New f (opts ++ [WithOutput (Some w)])%list) = Some w /\
     transport (New f (opts ++ [WithOutput (Some w)])%list)
     = transport (New f opts)) /\
  (forall t,
     transport (New f (opts ++ [WithTransport (Some t)])%list) = Some t /\
     output (New f (opts ++ [WithTransport (Some t)])%list)
     = output (New f opts)) /\
  New f [] = mkHandler f (Some ioutil_Discard) (Some http_DefaultTransport).
Proof.
  split; [reflexivity|]. split; [|split; [|reflexivity]].
  - intros w. unfold New. rewrite fold_left_app. split; reflexivity.
  - intros t. unfold New. rewrite fold_left_app. split; reflexivity.
Qed.

(** X13.  An output option and a transport option that stand next to each
    other can be swapped: [New] builds the same handler. *)
Theorem New_options_commute (f : Func) (before after : list Option) w t :
  New f (before ++ WithOutput w :: WithTransport t :: after)%list
  = New f (before ++ WithTransport t :: WithOutput w :: after)%list.
Proof.
  unfold New. rewrite !fold_left_app. simpl.
  destruct w, t; reflexivity.
Qed.

(** X14.  With a nil transport, [reply] hands nothing to the transport and
    writes nothing; it still returns the error of the serialization or of
    the URL check, and panics with a nil dereference exactly when the
    report is serialized and the URL parses. *)
Theorem reply_without_transport h ctx req input :
  transport h = None ->
  (reply h ctx req input).1 = [] /\
  (forall e0,
     json_Marshal input = inr e0 ->
     (reply h ctx req input).2
     = Returned (Some (fmt_Errorf "unable to marshal reply"))) /\
  (forall data e,
     json_Marshal input = inl data ->
     url_Parse (Request.ResponseURL req) = Some e ->
     (reply h ctx req input).2 = Returned (Some e)) /\
  ((reply h ctx req input).2 = Panicked (any_error nil_dereference) <->
   exists data,
     json_Marshal input = inl data /\
     url_Parse (Request.ResponseURL req) = None).
Proof.
  intros Ht. rewrite reply_unfold, Ht. cbv zeta.
  destruct (json_Marshal input) as [data|e0]; simpl.
  - destruct (url_Parse _) as [e|]; simpl.
    + split; [reflexivity|]. split; [discriminate|].
      split; [intros data' e' _ H; injection H as <-; reflexivity|].
      split; [discriminate|]. intros [data' [_ H]]. discriminate.
    + split; [reflexivity|]. split; [discriminate|].
      split; [discriminate|]. split; [eauto|reflexivity].
  - split; [reflexivity|]. split; [reflexivity|].
    split; [discriminate|]. split; [discriminate|].
    intros [data' [H _]]. discriminate.
Qed.

Lemma reply_same_url h ctx req1 req2 input :
  Request.ResponseURL req1 = Request.ResponseURL req2 ->
  reply h ctx req1 input = reply h ctx req2 input.
Proof. intros Hu. rewrite !reply_unfold, Hu. reflexivity. Qed.

(** X15.  Of the request, the delivery reads the [ResponseURL] and, for a
    success, [StackId], [RequestId] and [LogicalResourceId], and nothing
    else: for two requests with the same [ResponseURL], [replyFailure]
    hands the same requests to the transport and ends in the same way,
    whatever else the requests hold; and so does [replySuccess] when the
    two requests agree on [StackId], [RequestId] and [LogicalResourceId]
    as well. *)
Theorem reply_reads_of_request h ctx req1 req2 resp reason :
  Request.ResponseURL req1 = Request.ResponseURL req2 ->
  (round_trips (replyFailure h ctx req1 reason).1
   = round_trips (replyFailure h ctx req2 reason).1 /\
   (replyFailure h ctx req1 reason).2 = (replyFailure h ctx req2 reason).2) /\
  (Request.StackId req1 = Request.StackId req2 ->
   Request.RequestId req1 = Request.RequestId req2 ->
   Request.LogicalResourceId req1 = Request.LogicalResourceId req2 ->
   round_trips (replySuccess h ctx req1 resp).1
   = round_trips (replySuccess h ctx req2 resp).1 /\
   (replySuccess h ctx req1 resp).2 = (replySuccess h ctx req2 resp).2).
Proof.
  intros Hu. split.
  - destruct (output h) as [w|] eqn:Hw.
    + rewrite_zeta (replyFailure_reply h ctx req1 reason w Hw).
      rewrite_zeta (replyFailure_reply h ctx req2 reason w Hw).
      simpl. rewrite (reply_same_url h ctx req1 req2 _ Hu).
      split; reflexivity.
    + unfold replyFailure, fmt_Fprintf. rewrite Hw. split; reflexivity.
  - intros Hs Hr Hl.
    destruct resp as [resp|]; [|split; reflexivity].
    destruct (output h) as [w|] eqn:Hw.
    + rewrite_zeta (replySuccess_reply h ctx req1 resp w Hw).
      rewrite_zeta (replySuccess_reply h ctx req2 resp w Hw).
      rewrite Hs, Hr, Hl. simpl.
      rewrite (reply_same_url h ctx req1 req2 _ Hu). split; reflexivity.
    + unfold replySuccess, fmt_Fprintf. rewrite Hw. split; reflexivity.
Qed.


(** X17.  An option is overridden by a later one of its kind that is not
    nil: [WithOutput(w)] directly before [WithOutput(w')], and
    [WithTransport(t)] directly before [WithTransport(t')], with [w'] and
    [t'] not nil, can be left out. *)
Theorem New_option_overridden (f : Func) (before after : list Option)
  w w' t t' :
  New f (before ++ WithOutput w :: WithOutput (Some w') :: after)%list
  = New f (before ++ WithOutput (Some w') :: after)%list /\
  New f (before ++ WithTransport t :: WithTransport (Some t') :: after)%list
  = New f (before ++ WithTransport (Some t') :: after)%list.
Proof.
  unfold New. rewrite !fold_left_app. simpl.
  destruct w, t; split; reflexivity.
Qed.

(** X18.  A panic of the provisioning function for which [recover()]
    returns nil is not contained: [safeInvoke] returns nil, nil, and
    [Invoke] panics with a nil dereference in [replySuccess], right after
    the call and before anything is written or sent. *)
Theorem Invoke_nil_panic h ctx payload req req' :
  json_Unmarshal payload = inl req ->
  fn h ctx req = (req', Panics None) ->
  safeInvoke h ctx req = ([Called ctx req], Returned (req', None, None)) /\
  Invoke h ctx payload
  = ([Called ctx req], Panicked (any_error nil_dereference)).
Proof.
  intros Hdec Hfn. split; [exact (safeInvoke_nil_panic h ctx req req' Hfn)|].
  rewrite (Invoke_replySuccess h ctx payload req req' None Hdec)
    by (rewrite (safeInvoke_nil_panic _ _ _ _ Hfn); reflexivity).
  reflexivity.
Qed.

End Properties.

(** ** The request codec *)

(** C9.  Encoding a request and decoding the document again yields the
    request: every field, populated or not, is the original one. *)
Theorem request_roundtrip (r : Request.t) :
  unmarshalRequest (marshalRequest r) = inl r.
Proof.
  destruct r as [rt url sid rid ty lid pid [props|] [old|]]; reflexivity.
Qed.

(** ** Concrete runs *)

(** The test "ok": the function is called with the decoded request, the
    SUCCESS report for "blah" is put to http://localhost, and [Invoke]
    returns nil, nil. *)
Lemma Invoke_success_report_witness :
  Invoke (test_handler fn_ok) tt test_payload
  = ([Called tt test_request;
      Written "os.Stdout"
        (bytes_of
           ("Resource: Create succeeded. PhysicalResourceId=blah" +:+ nl));
      RoundTripped
        (put_request tt "http://localhost" (serialized success_report));
      Written "os.Stdout" (bytes_of ("200 OK" +:+ nl));
      Written "os.Stdout" []],
     Returned (None, None)).
Proof.
  exact (proj2
           (Invoke_success_report (test_handler fn_ok) tt test_payload
              test_request test_request blah eq_refl eq_refl)
           "os.Stdout" recorder (serialized success_report) ok_200
           eq_refl eq_refl eq_refl eq_refl eq_refl).
Defined.

(** The test "err": the FAILED report with reason "boom" is delivered and
    [Invoke] returns nil, nil. *)
Lemma Invoke_error_report_witness :
  Invoke (test_handler fn_boom) tt test_payload
  = ([Called tt test_request;
      Written "os.Stdout" (bytes_of ("Resource: Create failed - boom" +:+ nl));
      RoundTripped
        (put_request tt "http://localhost"
           (serialized (failure_report "boom")));
      Written "os.Stdout" (bytes_of ("200 OK" +:+ nl));
      Written "os.Stdout" []],
     Returned (None, None)).
Proof.
  exact (proj1 (proj2
           (Invoke_error_report (test_handler fn_boom) tt test_payload
              test_request test_request None (fmt_Errorf "boom")
              eq_refl eq_refl))
           "os.Stdout" recorder (serialized (failure_report "boom")) ok_200
           eq_refl eq_refl eq_refl eq_refl eq_refl).
Defined.


(** A truncated payload: the decode error comes back and nothing happened. *)
Lemma Invoke_decode_error_witness :
  Invoke (test_handler fn_ok) tt (bytes_of "{")
  = ([], Returned (None,
                   Some (other_error "*json.SyntaxError"
                           "unexpected end of JSON input"))).
Proof.
  exact (proj1
           (Invoke_decode_error (test_handler fn_ok) tt (bytes_of "{")
              (other_error "*json.SyntaxError" "unexpected end of JSON input")
              eq_refl)).
Defined.

(** With no server behind the default transport, [Invoke] returns the
    error of the transport although the function succeeded. *)
Lemma Invoke_returns_delivery_error_witness :
  (Invoke (New fn_ok []) tt test_payload).2
  = Returned (None, Some connection_refused).
Proof.
  exact (proj2 (proj2 (proj2
           (Invoke_returns_delivery_error (New fn_ok []) tt test_payload
              test_request test_request (Returns (Some blah) None)
              success_report "ioutil.Discard"
              eq_refl eq_refl eq_refl eq_refl)))
           (serialized success_report) refused connection_refused
           eq_refl eq_refl eq_refl eq_refl).
Defined.

(** A 500 is a response like any other: [reply] returns no error and
    copies status line and body. *)
Lemma reply_any_status_code_witness :
  reply (mkHandler fn_ok (Some "os.Stdout") (Some broken_server))
    tt test_request success_report
  = ([RoundTripped
        (put_request tt "http://localhost" (serialized success_report));
      Written "os.Stdout" (bytes_of ("500 Internal Server Error" +:+ nl));
      Written "os.Stdout" (bytes_of "oops")],
     Returned None).
Proof.
  exact (proj1
           (reply_any_status_code
              (mkHandler fn_ok (Some "os.Stdout") (Some broken_server))
              tt test_request success_report (serialized success_report)
              "os.Stdout" broken_server "500 Internal Server Error" 500
              (bytes_of "oops")
              eq_refl eq_refl eq_refl eq_refl eq_refl)).
Defined.

(** The one request of the test "err". *)
Lemma boom_round_trips :
  round_trips (Invoke (test_handler fn_boom) tt test_payload).1
  = [put_request tt "http://localhost" (serialized (failure_report "boom"))].
Proof. reflexivity. Qed.

(** The report delivered in the test "err" has only [Status] and [Reason]
    set, although the request names the resource "Resource". *)
Lemma failure_report_fields_witness :
  json_Marshal
    {| replyInput.Status := StatusFailed;
       replyInput.Reason := "boom";
       replyInput.PhysicalResourceId := EmptyString;
       replyInput.StackId := EmptyString;
       replyInput.RequestId := EmptyString;
       replyInput.LogicalResourceId := EmptyString;
       replyInput.Data := None |}
  = inl (HttpRequest.Body
           (put_request tt "http://localhost"
              (serialized (failure_report "boom")))).
Proof.
  assert (Hdec : json_Unmarshal test_payload = inl test_request)
    by reflexivity.
  assert (Hs : (safeInvoke (test_handler fn_boom) tt test_request).2
               = Returned (test_request, None, Some (fmt_Errorf "boom")))
    by reflexivity.
  apply (failure_report_fields (test_handler fn_boom) tt test_payload
           test_request test_request None (fmt_Errorf "boom") Hdec Hs
           (put_request tt "http://localhost"
              (serialized (failure_report "boom")))).
  rewrite boom_round_trips. apply list_elem_of_here.
Defined.

(** The report of the test "err" carries the reason "boom", which is not
    empty. *)
Lemma failed_reason_nonempty_witness :
  exists reason,
    reason = "boom" /\
    (Error (fmt_Errorf "boom") <> EmptyString -> reason <> EmptyString) /\
    json_Marshal (failure_report reason)
    = inl (HttpRequest.Body
             (put_request tt "http://localhost"
                (serialized (failure_report "boom")))).
Proof.
  assert (Hdec : json_Unmarshal test_payload = inl test_request)
    by reflexivity.
  assert (Hs : (safeInvoke (test_handler fn_boom) tt test_request).2
               = Returned (test_request, None, Some (fmt_Errorf "boom")))
    by reflexivity.
  apply (proj1
           (failed_reason_nonempty (test_handler fn_boom) tt test_payload
              test_request test_request None (fmt_Errorf "boom") Hdec Hs)
           (put_request tt "http://localhost"
              (serialized (failure_report "boom")))).
  rewrite boom_round_trips. apply list_elem_of_here.
Defined.

(** C8, as stated, fails: a provisioning function that returns
    [errors.New("")] makes [Invoke] deliver, without error, exactly one
    report, whose [Status] is FAILED and whose [Reason] is empty. *)
Lemma failed_reason_empty :
  exists r : HttpRequest.t unit,
    round_trips (Invoke (test_handler fn_silent) tt test_payload).1 = [r] /\
    (Invoke (test_handler fn_silent) tt test_payload).2
    = Returned (None, None) /\
    json_Marshal
      {| replyInput.Status := StatusFailed;
         replyInput.Reason := EmptyString;
         replyInput.PhysicalResourceId := EmptyString;
         replyInput.StackId := EmptyString;
         replyInput.RequestId := EmptyString;
         replyInput.LogicalResourceId := EmptyString;
         replyInput.Data := None |}
    = inl (HttpRequest.Body r).
Proof.
  exists (put_request tt "http://localhost"
            (serialized (failure_report EmptyString))).
  repeat split.
Qed.

(** A handler built with nil options among the others has an output and a
    transport. *)
Lemma New_never_nil_witness :
  output (New fn_ok [WithTransport (Some recorder);
                     WithOutput None;
                     WithTransport None]) <> None /\
  transport (New fn_ok [WithTransport (Some recorder);
                        WithOutput None;
                        WithTransport None]) <> None.
Proof.
  refine (proj1 (New_never_nil fn_ok _ _)).
  repeat (constructor; [eauto|]). constructor.
Defined.

(** A function that returns nil, nil makes [Invoke] panic. *)
Lemma Invoke_nil_response_witness :
  Invoke (test_handler fn_nothing) tt test_payload
  = ([Called tt test_request], Panicked (any_error nil_dereference)).
Proof.
  exact (Invoke_nil_response (test_handler fn_nothing) tt test_payload
           test_request test_request eq_refl eq_refl).
Defined.

(** The request of the test "ok" is a PUT to http://localhost. *)
Lemma Invoke_put_request_witness :
  HttpRequest.Method
    (put_request tt "http://localhost" (serialized success_report)) = "PUT" /\
  HttpRequest.Header
    (put_request tt "http://localhost" (serialized success_report))
    !! "Content-Type" = Some ["application/json"] /\
  HttpRequest.Ctx
    (put_request tt "http://localhost" (serialized success_report)) = Some tt /\
  exists req,
    json_Unmarshal test_payload = inl req /\
    HttpRequest.URL
      (put_request tt "http://localhost" (serialized success_report))
    = Request.ResponseURL (fn (test_handler fn_ok) tt req).1.
Proof.
  apply (Invoke_put_request (test_handler fn_ok) tt test_payload).
  apply list_elem_of_here.
Defined.

(** The payload [Invoke] returns in the test "ok" is nil. *)
Lemma Invoke_no_payload_witness :
  (Invoke (test_handler fn_ok) tt test_payload).2 = Returned (None, None) /\
  @None (list byte) = None.
Proof.
  split; [reflexivity|].
  exact (Invoke_no_payload (test_handler fn_ok) tt test_payload None None
           eq_refl).
Defined.

(** The error [Invoke] returns with no server behind the default transport
    is the one the transport returned for the one request. *)
Lemma Invoke_error_provenance_witness :
  json_Unmarshal test_payload = inr connection_refused \/
  exists req input,
    json_Unmarshal test_payload = inl req /\
    report_of (fn (New fn_ok []) tt req).1 (fn (New fn_ok []) tt req).2
    = Some input /\
    ((connection_refused = fmt_Errorf "unable to marshal reply" /\
      exists e0, json_Marshal input = inr e0) \/
     url_Parse (Request.ResponseURL (fn (New fn_ok []) tt req).1)
     = Some connection_refused \/
     exists rt r,
       transport (New fn_ok []) = Some rt /\
       round_trips (Invoke (New fn_ok []) tt test_payload).1 = [r] /\
       rt r = inr connection_refused).
Proof.
  assert (H : (Invoke (New fn_ok []) tt test_payload).2
              = Returned (None, Some connection_refused)) by reflexivity.
  exact (Invoke_error_provenance (New fn_ok []) tt test_payload None
           connection_refused H).
Defined.

(** In the test "ok" [Invoke] returns no error: the recorder answered the
    one request. *)
Lemma Invoke_nil_error_delivered_witness :
  exists req input rt r httpResp,
    json_Unmarshal test_payload = inl req /\
    report_of (fn (test_handler fn_ok) tt req).1
      (fn (test_handler fn_ok) tt req).2 = Some input /\
    transport (test_handler fn_ok) = Some rt /\
    round_trips (Invoke (test_handler fn_ok) tt test_payload).1 = [r] /\
    json_Marshal input = inl (HttpRequest.Body r) /\
    HttpRequest.URL r = Request.ResponseURL (fn (test_handler fn_ok) tt req).1 /\
    rt r = inl httpResp.
Proof.
  assert (H : (Invoke (test_handler fn_ok) tt test_payload).2
              = Returned (None, None)) by reflexivity.
  exact (Invoke_nil_error_delivered (test_handler fn_ok) tt test_payload None
           H).
Defined.

(** The zero handler panics right after the call. *)
Lemma Invoke_without_output_witness :
  Invoke (mkHandler fn_ok None None) tt test_payload
  = ([Called tt test_request], Panicked (any_error nil_dereference)).
Proof.
  exact (Invoke_without_output (mkHandler fn_ok None None) tt test_payload
           test_request eq_refl eq_refl).
Defined.

(** The trace of the test "ok". *)
Lemma ok_trace :
  (Invoke (test_handler fn_ok) tt test_payload).1
  = [Called tt test_request;
     Written "os.Stdout"
       (bytes_of
          ("Resource: Create succeeded. PhysicalResourceId=blah" +:+ nl));
     RoundTripped
       (put_request tt "http://localhost" (serialized success_report));
     Written "os.Stdout" (bytes_of ("200 OK" +:+ nl));
     Written "os.Stdout" []].
Proof. reflexivity. Qed.

(** The status line of the test "ok" was written to os.Stdout, the output
    of the handler. *)
Lemma Invoke_writes_to_output_witness :
  output (test_handler fn_ok) = Some "os.Stdout".
Proof.
  apply (Invoke_writes_to_output (test_handler fn_ok) tt test_payload
           "os.Stdout" (bytes_of ("200 OK" +:+ nl))).
  rewrite ok_trace. do 3 apply list_elem_of_further. apply list_elem_of_here.
Defined.

(** With no server behind the default transport, the progress line of the
    success is all that is written. *)
Lemma Invoke_progress_line_witness :
  written (fun _ => true)
    (Invoke (New fn_ok [WithOutput (Some "os.Stdout")]) tt test_payload).1
  = bytes_of ("Resource: Create succeeded. PhysicalResourceId=blah" +:+ nl).
Proof.
  assert (Hdec : json_Unmarshal test_payload = inl test_request)
    by reflexivity.
  assert (Herr : (Invoke (New fn_ok [WithOutput (Some "os.Stdout")]) tt
                    test_payload).2
                 = Returned (None, Some connection_refused)) by reflexivity.
  exact (proj2
           (Invoke_progress_line
              (New fn_ok [WithOutput (Some "os.Stdout")]) tt test_payload
              test_request test_request (Returns (Some blah) None)
              success_report "os.Stdout" Hdec eq_refl eq_refl eq_refl)
           connection_refused (fun _ => true) Herr eq_refl).
Defined.

(** A handler with an output and no transport panics in [reply] for the
    report of the test "ok". *)
Lemma reply_without_transport_witness :
  (reply (mkHandler fn_ok (Some "os.Stdout") None) tt test_request
     success_report).1 = [] /\
  (reply (mkHandler fn_ok (Some "os.Stdout") None) tt test_request
     success_report).2 = Panicked (any_error nil_dereference).
Proof.
  pose proof (reply_without_transport
                (mkHandler fn_ok (Some "os.Stdout") None) tt test_request
                success_report eq_refl) as [Ht [_ [_ Hp]]].
  split; [exact Ht|]. apply Hp. eexists. split; reflexivity.
Defined.

(** A request of another stack with the same [ResponseURL] gets the same
    failure delivered, and a Delete of the same resource, with a physical
    identifier, is replied to with the same success as the Create of the
    tests. *)
Lemma reply_reads_of_request_witness :
  (round_trips (replyFailure (test_handler fn_boom) tt test_request "boom").1
   = round_trips
       (replyFailure (test_handler fn_boom) tt other_stack_request "boom").1 /\
   (replyFailure (test_handler fn_boom) tt test_request "boom").2
   = (replyFailure (test_handler fn_boom) tt other_stack_request "boom").2) /\
  (round_trips
     (replySuccess (test_handler fn_ok) tt test_request (Some blah)).1
   = round_trips
       (replySuccess (test_handler fn_ok) tt delete_request (Some blah)).1 /\
   (replySuccess (test_handler fn_ok) tt test_request (Some blah)).2
   = (replySuccess (test_handler fn_ok) tt delete_request (Some blah)).2).
Proof.
  split.
  - exact (proj1
             (reply_reads_of_request (test_handler fn_boom) tt test_request
                other_stack_request (Some blah) "boom" eq_refl)).
  - exact (proj2
             (reply_reads_of_request (test_handler fn_ok) tt test_request
                delete_request (Some blah) "boom" eq_refl)
             eq_refl eq_refl eq_refl).
Defined.

(** The function of the tests and the same function asking for no echo
    are dispatched alike. *)
Lemma Invoke_ignores_NoEcho_witness :
  Invoke (test_handler fn_ok) tt test_payload
  = Invoke (test_handler fn_no_echo) tt test_payload.
Proof.
  exact (Invoke_ignores_NoEcho (test_handler fn_ok)
           (test_handler fn_no_echo) tt test_payload test_request
           test_request None "blah" false true
           eq_refl eq_refl eq_refl eq_refl eq_refl).
Defined.


(** The handler of the tests with a function that panics with nil. *)
Lemma Invoke_nil_panic_witness :
  Invoke (test_handler fn_nil_panic) tt test_payload
  = ([Called tt test_request], Panicked (any_error nil_dereference)).
Proof.
  exact (proj2
           (Invoke_nil_panic (test_handler fn_nil_panic) tt test_payload
              test_request test_request eq_refl eq_refl)).
Defined.
